(** * generate_icons.py: the icon renderer and its drawing calls

    The script builds a square RGBA canvas, asks the imaging library
    (Pillow) for one filled ellipse and four strokes, saves the canvas as
    PNG and prints a confirmation.  Python integers are unbounded, so
    sizes and coordinates are [Z]; [//] is floor division, which is
    [Z.div] for the positive divisors used here. *)

From Stdlib Require Import ZArith Lia.
From stdpp Require Import base option list list_numbers strings gmap.

Local Open Scope Z_scope.

(** ** Data *)

Definition RGBA : Type := Z * Z * Z * Z.
Definition Point : Type := Z * Z.
Definition Box : Type := Z * Z * Z * Z.

Definition alpha (c : RGBA) : Z := c.2.

Definition transparent : RGBA := (0, 0, 0, 0).
Definition orange : RGBA := (255, 152, 0, 255).
Definition white : RGBA := (255, 255, 255, 255).
Definition alert_white : RGBA := (255, 255, 255, 200).

(** The calls [create_icon] makes on its [ImageDraw.Draw] object, with
    their arguments: [draw.ellipse(xy, fill=...)] and
    [draw.line(xy, fill=..., width=...)]. *)
Inductive draw_call : Type :=
| ellipse (xy : Box) (fill : RGBA)
| line (xy : Point * Point) (fill : RGBA) (width : Z).

#[global] Instance RGBA_eq_dec : EqDecision RGBA.
Proof. unfold RGBA. apply _. Defined.

#[global] Instance draw_call_eq_dec : EqDecision draw_call.
Proof. unfold EqDecision, Decision, Box, Point, RGBA. solve_decision. Defined.

(** ** Geometry of [create_icon] (lines 9-37) *)

Module Icon.

Definition margin (size : Z) : Z := size / 8.
Definition line_width (size : Z) : Z := Z.max 2 (size / 16).
Definition center (size : Z) : Z := size / 2.

Definition points (size : Z) : list Point :=
  [ (margin size + size / 6, center size + size / 6);
    (center size - size / 10, center size - size / 10);
    (center size + size / 10, center size);
    (size - margin size - size / 6, center size - size / 4) ].

Definition y_line (size : Z) : Z := center size - size / 8.

(** [draw.ellipse([margin, margin, size - margin, size - margin], fill=orange)] *)
Definition circle_call (size : Z) : draw_call :=
  ellipse (margin size, margin size, size - margin size, size - margin size)
          orange.

(** [for i in range(len(points) - 1): draw.line([points[i], points[i+1]], ...)].
    Every index used is below [len(points)], so the default of [nth] is
    never returned. *)
Definition trend_calls (size : Z) : list draw_call :=
  let pts := points size in
  (fun i : nat =>
     line (nth i pts (0, 0), nth (S i) pts (0, 0)) white (line_width size))
    <$> seq 0 (length pts - 1).

(** The horizontal alert line. *)
Definition alert_call (size : Z) : draw_call :=
  line ((margin size + size / 8, y_line size),
        (size - margin size - size / 8, y_line size))
       alert_white
       (Z.max 1 (line_width size / 2)).

(** All drawing calls of one [create_icon(size, _)], in program order. *)
Definition draw_calls (size : Z) : list draw_call :=
  circle_call size :: trend_calls size ++ [alert_call size].

End Icon.

(** [q] is the floor of the quotient [n / d]. *)
Definition is_floor (q n d : Z) : Prop := d * q <= n < d * (q + 1).

Definition fill_of (c : draw_call) : RGBA :=
  match c with
  | ellipse _ fill => fill
  | line _ fill _ => fill
  end.

(** ** The imaging library

    Pillow is not part of the repository.  Its calls are taken as a
    parameter: each one is a function of its arguments that either
    returns or raises. *)

Inductive PyExn : Type := ValueError | SystemError | OSError.

Inductive result (A : Type) : Type :=
| Ok (a : A)
| Raise (e : PyExn).
Arguments Ok {A} a.
Arguments Raise {A} e.

#[global] Instance result_ret : MRet result := @Ok.
#[global] Instance result_bind : MBind result := fun A B f r =>
  match r with
  | Ok a => f a
  | Raise e => Raise e
  end.

(** A canvas: its [(width, height)] and the colour stored at each
    coordinate. *)
Record Image : Type := mkImage {
  im_size : Z * Z;
  im_pixel : Z -> Z -> RGBA
}.

(** [img.getpixel((x, y))] at a coordinate of the canvas; [None] outside
    it.  (Pillow also accepts negative coordinates, counted from the far
    edge; no statement below reads one.) *)
Definition getpixel (img : Image) (xy : Point) : option RGBA :=
  let '(x, y) := xy in
  if decide (0 <= x < (im_size img).1 /\ 0 <= y < (im_size img).2)
  then Some (im_pixel img x y) else None.

Arguments getpixel : simpl never.

Record Pillow : Type := mkPillow {
  (** [Image.new('RGBA', size, color)] *)
  Image_new : Z * Z -> RGBA -> result Image;
  (** [ImageDraw.Draw(img).ellipse(xy, fill=fill)] *)
  draw_ellipse : Image -> Box -> RGBA -> result Image;
  (** [ImageDraw.Draw(img).line(xy, fill=fill, width=width)] *)
  draw_line : Image -> Point * Point -> RGBA -> Z -> result Image;
  (** the bytes [img.save(_, 'PNG')] writes *)
  png_encode : Image -> result (list Z);
  (** what has reached the file when the encoder raises *)
  png_partial : Image -> list Z
}.

Definition draw (lib : Pillow) (img : Image) (c : draw_call) : result Image :=
  match c with
  | ellipse xy fill => draw_ellipse lib img xy fill
  | line xy fill width => draw_line lib img xy fill width
  end.

Fixpoint draw_all (lib : Pillow) (img : Image) (cs : list draw_call)
  : result Image :=
  match cs with
  | [] => Ok img
  | c :: cs' => img' ← draw lib img c; draw_all lib img' cs'
  end.

(** ** The world outside the process: files and standard output *)

Record World : Type := mkWorld {
  files : gmap string (list Z);
  (** whether a path can be opened for writing (its directory exists
      and is writable) *)
  writable : string -> bool;
  stdout : list string
}.

(** A statement run in a world: the world it leaves, and its value or the
    exception that stopped it. *)
Definition prog (A : Type) : Type := World -> World * result A.

Definition lift {A} (r : result A) : prog A := fun w => (w, r).

#[global] Instance prog_ret : MRet prog := fun A a w => (w, Ok a).
#[global] Instance prog_bind : MBind prog := fun A B k p w =>
  match p w with
  | (w', Ok a) => k a w'
  | (w', Raise e) => (w', Raise e)
  end.

(** [print(s)] *)
Definition print (s : string) : prog unit := fun w =>
  (mkWorld (files w) (writable w) (stdout w ++ [s]), Ok tt).

(** The world after a save whose encoder raised: the path had been
    opened for writing, so a file that was there holds the bytes written
    up to the error; a file the save had created is removed again. *)
Definition failed_save (filename : string) (partial : list Z) (w : World)
  : World :=
  mkWorld (match files w !! filename with
           | Some _ => <[filename := partial]> (files w)
           | None => files w
           end)
          (writable w) (stdout w).

(** [img.save(filename, 'PNG')]: the path is opened for writing first,
    which empties a file that is there; then the canvas is encoded into
    it. *)
Definition save (lib : Pillow) (img : Image) (filename : string) : prog unit :=
  fun w =>
    if writable w filename then
      match png_encode lib img with
      | Ok data =>
          (mkWorld (<[filename := data]> (files w)) (writable w) (stdout w),
           Ok tt)
      | Raise e => (failed_save filename (png_partial lib img) w, Raise e)
      end
    else (w, Raise OSError).

(** ** [create_icon] and the module top level *)

(** Lines 5-37: the canvas that [img.save] receives. *)
Definition draw_icon (lib : Pillow) (size : Z) : result Image :=
  img ← Image_new lib (size, size) (0, 0, 0, 0);
  draw_all lib img (Icon.draw_calls size).

Definition create_icon (lib : Pillow) (size : Z) (filename : string)
  : prog unit :=
  img ← lift (draw_icon lib size);
  save lib img filename;;
  print ("Created " +:+ filename).

Definition icon16 : string :=
  "C:\Users\USER\tradingview-alert-extension\icons\icon16.png".
Definition icon48 : string :=
  "C:\Users\USER\tradingview-alert-extension\icons\icon48.png".
Definition icon128 : string :=
  "C:\Users\USER\tradingview-alert-extension\icons\icon128.png".

Definition main (lib : Pillow) : prog unit :=
  create_icon lib 16 icon16;;
  create_icon lib 48 icon48;;
  create_icon lib 128 icon128;;
  print "All icons created successfully!".

(** The bytes [create_icon(size, _)] hands to the file system. *)
Definition icon_png (lib : Pillow) (size : Z) : result (list Z) :=
  img ← draw_icon lib size; png_encode lib img.

(** The world after a successful [create_icon(size, filename)] that wrote
    [data]. *)
Definition created (filename : string) (data : list Z) (w : World) : World :=
  mkWorld (<[filename := data]> (files w)) (writable w)
          (stdout w ++ ["Created " +:+ filename]).

(** Calls of [create_icon] one after the other, stopping at the first
    that raises. *)
Fixpoint create_icons (lib : Pillow) (jobs : list (Z * string)) : prog unit :=
  match jobs with
  | [] => mret tt
  | (size, filename) :: rest =>
      create_icon lib size filename;; create_icons lib rest
  end.

(** ** What the drawing calls may change

    The contract assumed of the imaging library.  It bounds the pixels a
    call can change and says nothing of which pixels inside that bound
    are painted: rasterisation itself stays with the library. *)

(** Inside the box, and inside the ellipse inscribed in the box widened
    by [grow] pixels in each direction. *)
Definition in_ellipse (grow : Z) (xy : Box) (x y : Z) : Prop :=
  let '(x0, y0, x1, y1) := xy in
  let w := x1 - x0 + grow in
  let h := y1 - y0 + grow in
  (x0 <= x <= x1 /\ y0 <= y <= y1) /\
  ((2 * x - x0 - x1) * h) ^ 2 + ((2 * y - y0 - y1) * w) ^ 2 <= (w * h) ^ 2.

(** An ellipse call reaches at most one pixel beyond the ellipse whose
    axes are the sides of its (inclusive) box. *)
Definition ellipse_reach (xy : Box) (x y : Z) : Prop := in_ellipse 2 xy x y.

(** A stroke of width [width] stays within [width // 2] pixels of the
    rectangle spanned by its end points. *)
Definition line_reach (xy : Point * Point) (width : Z) (x y : Z) : Prop :=
  let '((x0, y0), (x1, y1)) := xy in
  let r := width / 2 in
  Z.min x0 x1 - r <= x <= Z.max x0 x1 + r /\
  Z.min y0 y1 - r <= y <= Z.max y0 y1 + r.

Definition reach (c : draw_call) (x y : Z) : Prop :=
  match c with
  | ellipse xy _ => ellipse_reach xy x y
  | line xy _ width => line_reach xy width x y
  end.

#[global] Instance in_ellipse_dec grow xy x y : Decision (in_ellipse grow xy x y).
Proof. destruct xy as [[[x0 y0] x1] y1]. unfold in_ellipse. apply _. Defined.

#[global] Instance line_reach_dec xy width x y : Decision (line_reach xy width x y).
Proof. destruct xy as [[x0 y0] [x1 y1]]. unfold line_reach. apply _. Defined.

(** Memory is taken as unbounded: [Image.new] is not made to fail on a
    canvas too large to allocate. *)
Class PillowSpec (lib : Pillow) : Prop := {
  new_ok w h c :
    0 < w -> 0 < h -> exists img, Image_new lib (w, h) c = Ok img;
  new_blank w h c img :
    Image_new lib (w, h) c = Ok img ->
    im_size img = (w, h) /\
    forall xy, is_Some (getpixel img xy) -> getpixel img xy = Some c;
  ellipse_ok img x0 y0 x1 y1 c :
    x0 <= x1 -> y0 <= y1 ->
    exists img', draw_ellipse lib img (x0, y0, x1, y1) c = Ok img';
  ellipse_frame img xy c img' :
    draw_ellipse lib img xy c = Ok img' ->
    im_size img' = im_size img /\
    forall x y, ~ ellipse_reach xy x y ->
                getpixel img' (x, y) = getpixel img (x, y);
  line_ok img xy c width :
    0 < width -> exists img', draw_line lib img xy c width = Ok img';
  line_frame img xy c width img' :
    draw_line lib img xy c width = Ok img' ->
    im_size img' = im_size img /\
    forall x y, ~ line_reach xy width x y ->
                getpixel img' (x, y) = getpixel img (x, y);
  png_ok img :
    0 < (im_size img).1 -> 0 < (im_size img).2 ->
    exists data, png_encode lib img = Ok data
}.

(** How the library treats a canvas without pixels: [Image.new] raises
    [ValueError] on a negative dimension and accepts a zero one; the PNG
    encoder raises [ValueError] on an image with an empty side. *)
Class PillowRejects (lib : Pillow) : Prop := {
  new_negative w h c :
    w < 0 \/ h < 0 -> Image_new lib (w, h) c = Raise ValueError;
  new_empty_ok c : exists img, Image_new lib (0, 0) c = Ok img;
  encode_empty img :
    (im_size img).1 <= 0 \/ (im_size img).2 <= 0 ->
    png_encode lib img = Raise ValueError
}.

(** Arguments the library accepts: an ellipse box with ordered corners, a
    stroke of positive width. *)
Definition call_valid (c : draw_call) : Prop :=
  match c with
  | ellipse (x0, y0, x1, y1) _ => x0 <= x1 /\ y0 <= y1
  | line _ _ width => 0 < width
  end.

Definition corners (size : Z) : list Point :=
  [(0, 0); (size - 1, 0); (0, size - 1); (size - 1, size - 1)].

(** ** A reference library

    A small rasteriser that meets the contract and refuses nothing: it
    exercises the definitions above on concrete inputs.  It is not
    Pillow's algorithm. *)

Module Reference.

Definition new (size : Z * Z) (c : RGBA) : result Image :=
  Ok (mkImage size (fun _ _ => c)).

(** Paints the pixels whose centre lies in the ellipse inscribed in the
    box of pixels [x0..x1] x [y0..y1]. *)
Definition fill_ellipse (img : Image) (xy : Box) (c : RGBA) : result Image :=
  Ok (mkImage (im_size img)
        (fun x y => if decide (in_ellipse 1 xy x y) then c
                    else im_pixel img x y)).

(** Within the stroke: at most half the width away from the line
    through the end points. *)
Definition in_band (xy : Point * Point) (width : Z) (x y : Z) : Prop :=
  let '((x0, y0), (x1, y1)) := xy in
  let dx := x1 - x0 in
  let dy := y1 - y0 in
  4 * ((x - x0) * dy - (y - y0) * dx) ^ 2 <= width ^ 2 * (dx ^ 2 + dy ^ 2).

#[global] Instance in_band_dec xy width x y : Decision (in_band xy width x y).
Proof. destruct xy as [[x0 y0] [x1 y1]]. unfold in_band. apply _. Defined.

Definition stroke (img : Image) (xy : Point * Point) (c : RGBA) (width : Z)
  : result Image :=
  Ok (mkImage (im_size img)
        (fun x y => if decide (line_reach xy width x y /\ in_band xy width x y)
                    then c else im_pixel img x y)).

(** Width, height, then the pixels row by row. *)
Definition encode (img : Image) : result (list Z) :=
  let '(w, h) := im_size img in
  Ok (w :: h ::
      y ← seqZ 0 h; x ← seqZ 0 w;
      let '(r, g, b, a) := im_pixel img x y in [r; g; b; a]).

Definition lib : Pillow :=
  mkPillow new fill_ellipse stroke encode (fun _ => []).

(** Every path can be written, nothing is there yet. *)
Definition fresh : World := mkWorld ∅ (fun _ => true) [].

End Reference.

(** The reference rasteriser behind the checks of [PillowRejects]. *)
Module Strict.

Definition new (size : Z * Z) (c : RGBA) : result Image :=
  if decide (size.1 < 0 \/ size.2 < 0) then Raise ValueError
  else Reference.new size c.

Definition encode (img : Image) : result (list Z) :=
  if decide ((im_size img).1 <= 0 \/ (im_size img).2 <= 0)
  then Raise ValueError
  else Reference.encode img.

Definition lib : Pillow :=
  mkPillow new Reference.fill_ellipse Reference.stroke encode (fun _ => []).

End Strict.

(** ** Regions of the canvas *)

(** The pixel coordinates of a [size] x [size] canvas. *)
Definition in_canvas (size x y : Z) : Prop := 0 <= x < size /\ 0 <= y < size.

(** The box handed to [draw.ellipse], borders included. *)
Definition in_circle_box (size x y : Z) : Prop :=
  Icon.margin size <= x <= size - Icon.margin size /\
  Icon.margin size <= y <= size - Icon.margin size.

(** [w'] can be reached from [w] by writing to [paths] and printing: the
    other files are as they were, no file has gone, earlier output is still
    there. *)
Definition extends (paths : list string) (w w' : World) : Prop :=
  writable w' = writable w /\
  stdout w `prefix_of` stdout w' /\
  (forall q, q ∉ paths -> files w' !! q = files w !! q) /\
  (forall q, is_Some (files w !! q) -> is_Some (files w' !! q)).

(** Arithmetic goals over the floor divisions of the geometry. *)
Ltac div_lia :=
  unfold Icon.y_line, Icon.margin, Icon.line_width, Icon.center in *;
  Z.div_mod_to_equations; lia.

(** * Properties *)

(** ** The drawing calls *)

Example draw_calls_16 :
  Icon.draw_calls 16 =
  [ ellipse (2, 2, 14, 14) orange;
    line ((4, 10), (7, 7)) white 2;
    line ((7, 7), (9, 8)) white 2;
    line ((9, 8), (12, 4)) white 2;
    line ((4, 6), (12, 6)) alert_white 1 ].
Proof. reflexivity. Qed.

Example draw_calls_128 :
  Icon.draw_calls 128 =
  [ ellipse (16, 16, 112, 112) orange;
    line ((37, 85), (52, 52)) white 8;
    line ((52, 52), (76, 64)) white 8;
    line ((76, 64), (91, 32)) white 8;
    line ((32, 48), (96, 48)) alert_white 4 ].
Proof. reflexivity. Qed.

Lemma div_is_floor (n d : Z) : 0 < d -> is_floor (n / d) n d.
Proof. intros Hd. unfold is_floor. div_lia. Qed.

(** The loop over [range(len(points) - 1)] issues one stroke per pair of
    neighbouring vertices. *)
Lemma draw_calls_unfold (size : Z) :
  Icon.draw_calls size =
  [ ellipse (Icon.margin size, Icon.margin size,
             size - Icon.margin size, size - Icon.margin size) orange;
    line ((Icon.margin size + size / 6, Icon.center size + size / 6),
          (Icon.center size - size / 10, Icon.center size - size / 10))
         white (Icon.line_width size);
    line ((Icon.center size - size / 10, Icon.center size - size / 10),
          (Icon.center size + size / 10, Icon.center size))
         white (Icon.line_width size);
    line ((Icon.center size + size / 10, Icon.center size),
          (size - Icon.margin size - size / 6, Icon.center size - size / 4))
         white (Icon.line_width size);
    line ((Icon.margin size + size / 8, Icon.y_line size),
          (size - Icon.margin size - size / 8, Icon.y_line size))
         alert_white (Z.max 1 (Icon.line_width size / 2)) ].
Proof. reflexivity. Qed.

(** C3: for a positive size, [margin], [line_width] (the stroke) and
    [center] are the floors of size/8, size/16 (raised to at least 2) and
    size/2, and the circle is asked for in the box
    [margin, margin, size - margin, size - margin]; at size 16 they are
    2, 2, 8 with box (2,2)-(14,14), at size 128 they are 16, 8, 64 with box
    (16,16)-(112,112). *)
Theorem derived_scalars (size : Z) :
  0 < size ->
  (is_floor (Icon.margin size) size 8 /\
   (exists q, is_floor q size 16 /\ Icon.line_width size = Z.max 2 q) /\
   is_floor (Icon.center size) size 2 /\
   head (Icon.draw_calls size) =
     Some (ellipse (Icon.margin size, Icon.margin size,
                    size - Icon.margin size, size - Icon.margin size) orange)) /\
  ((Icon.margin 16, Icon.line_width 16, Icon.center 16) = (2, 2, 8) /\
   head (Icon.draw_calls 16) = Some (ellipse (2, 2, 14, 14) orange)) /\
  ((Icon.margin 128, Icon.line_width 128, Icon.center 128) = (16, 8, 64) /\
   head (Icon.draw_calls 128) = Some (ellipse (16, 16, 112, 112) orange)).
Proof.
  intros _. repeat split; try reflexivity.
  - unfold is_floor. div_lia.
  - unfold is_floor. div_lia.
  - exists (size / 16). split; [by apply div_is_floor | reflexivity].
  - unfold is_floor. div_lia.
  - unfold is_floor. div_lia.
Qed.

Lemma derived_scalars_witness :
  0 < 48 /\ Icon.margin 48 = 6 /\ Icon.line_width 48 = 3 /\ Icon.center 48 = 24.
Proof.
  split; [lia |].
  pose proof (derived_scalars 48 ltac:(lia)) as [(Hm & (q & Hq & Hw) & Hc & _) _].
  unfold is_floor in *. lia.
Defined.

Lemma bind_Ok_inv {A B} (r : result A) (k : A -> result B) (b : B) :
  r ≫= k = Ok b -> exists a, r = Ok a /\ k a = Ok b.
Proof. destruct r as [a | e]; [eauto | discriminate]. Qed.

Lemma bind_Ok {A B} (a : A) (k : A -> result B) : Ok a ≫= k = k a.
Proof. reflexivity. Qed.

Lemma result_bind_ret {A} (r : result A) : r ≫= Ok = r.
Proof. by destruct r. Qed.

Lemma result_bind_ext {A B} (r : result A) (f g : A -> result B) :
  (forall a, f a = g a) -> r ≫= f = r ≫= g.
Proof. intros Hfg. destruct r as [a | e]; [apply Hfg | reflexivity]. Qed.

Lemma draw_all_app (lib : Pillow) (cs cs' : list draw_call) (img : Image) :
  draw_all lib img (cs ++ cs') =
  (img' ← draw_all lib img cs; draw_all lib img' cs').
Proof.
  revert img. induction cs as [| c cs IH]; intros img; [reflexivity |].
  simpl. destruct (draw lib img c) as [img1 | e]; [apply IH | reflexivity].
Qed.

(** [create_icon] makes exactly these library calls on its canvas, in this
    order, each one on the canvas the one before returned; a call that
    raises ends the drawing. *)
Lemma draw_all_calls (lib : Pillow) (size : Z) (img0 : Image) :
  draw_all lib img0 (Icon.draw_calls size) =
  (img ← draw_ellipse lib img0
         (size / 8, size / 8, size - size / 8, size - size / 8)
         (255, 152, 0, 255);
   img ← draw_line lib img
         ((size / 8 + size / 6, size / 2 + size / 6),
          (size / 2 - size / 10, size / 2 - size / 10))
         (255, 255, 255, 255) (Z.max 2 (size / 16));
   img ← draw_line lib img
         ((size / 2 - size / 10, size / 2 - size / 10),
          (size / 2 + size / 10, size / 2))
         (255, 255, 255, 255) (Z.max 2 (size / 16));
   img ← draw_line lib img
         ((size / 2 + size / 10, size / 2),
          (size - size / 8 - size / 6, size / 2 - size / 4))
         (255, 255, 255, 255) (Z.max 2 (size / 16));
   draw_line lib img
     ((size / 8 + size / 8, size / 2 - size / 8),
      (size - size / 8 - size / 8, size / 2 - size / 8))
     (255, 255, 255, 200) (Z.max 1 (Z.max 2 (size / 16) / 2))).
Proof.
  rewrite draw_calls_unfold. cbn [draw_all draw].
  do 4 (apply result_bind_ext; intros ?). apply result_bind_ret.
Qed.

(** C4: the four vertices are
    P0 = (margin + size//6, center + size//6),
    P1 = (center - size//10, center - size//10),
    P2 = (center + size//10, center),
    P3 = (size - margin - size//6, center - size//4),
    and with any library [create_icon] draws, after the circle and before
    the alert line, exactly the three strokes P0-P1, P1-P2, P2-P3 in that
    order, each in opaque white (255,255,255,255) and of width
    [max(2, size//16)]; no other call uses that colour.  This holds for
    every size, positive or not. *)
Theorem trend_polyline (size : Z) :
  let margin := size / 8 in
  let center := size / 2 in
  let stroke := Z.max 2 (size / 16) in
  let P0 := (margin + size / 6, center + size / 6) in
  let P1 := (center - size / 10, center - size / 10) in
  let P2 := (center + size / 10, center) in
  let P3 := (size - margin - size / 6, center - size / 4) in
  Icon.points size = [P0; P1; P2; P3] /\
  (forall lib : Pillow,
     draw_icon lib size =
     (img ← Image_new lib (size, size) (0, 0, 0, 0);
      img ← draw_ellipse lib img
            (margin, margin, size - margin, size - margin) (255, 152, 0, 255);
      img ← draw_line lib img (P0, P1) (255, 255, 255, 255) stroke;
      img ← draw_line lib img (P1, P2) (255, 255, 255, 255) stroke;
      img ← draw_line lib img (P2, P3) (255, 255, 255, 255) stroke;
      draw_line lib img
        ((margin + size / 8, center - size / 8),
         (size - margin - size / 8, center - size / 8))
        (255, 255, 255, 200) (Z.max 1 (stroke / 2)))) /\
  filter (fun c => fill_of c = (255, 255, 255, 255)) (Icon.draw_calls size) =
    [ line (P0, P1) (255, 255, 255, 255) stroke;
      line (P1, P2) (255, 255, 255, 255) stroke;
      line (P2, P3) (255, 255, 255, 255) stroke ].
Proof.
  cbv zeta. split; [reflexivity |]. split; [| reflexivity].
  intros lib. unfold draw_icon.
  destruct (Image_new lib (size, size) (0, 0, 0, 0)) as [img0 | e];
    [| reflexivity].
  rewrite !bind_Ok. apply draw_all_calls.
Qed.

(** C5: with any library the last drawing call of [create_icon] is one
    stroke in translucent white (255,255,255,200), horizontal at
    [y_line = center - size//8], from [x = margin + size//8] to
    [x = size - margin - size//8], of width [max(1, stroke//2)]; none of the
    calls before it uses that colour, so exactly one such stroke is drawn.
    This holds for every size, positive or not. *)
Theorem alert_line (size : Z) :
  let margin := size / 8 in
  let center := size / 2 in
  let stroke := Z.max 2 (size / 16) in
  let y_line := center - size / 8 in
  (forall lib : Pillow,
     draw_icon lib size =
     (img ← (img0 ← Image_new lib (size, size) (0, 0, 0, 0);
             draw_all lib img0 (Icon.circle_call size :: Icon.trend_calls size));
      draw_line lib img
        ((margin + size / 8, y_line), (size - margin - size / 8, y_line))
        (255, 255, 255, 200) (Z.max 1 (stroke / 2)))) /\
  Forall (fun c => fill_of c <> (255, 255, 255, 200))
         (Icon.circle_call size :: Icon.trend_calls size) /\
  filter (fun c => fill_of c = (255, 255, 255, 200)) (Icon.draw_calls size) =
    [ line ((margin + size / 8, y_line), (size - margin - size / 8, y_line))
           (255, 255, 255, 200) (Z.max 1 (stroke / 2)) ].
Proof.
  cbv zeta. split; [| split; [| reflexivity]].
  - intros lib. unfold draw_icon.
    destruct (Image_new lib (size, size) (0, 0, 0, 0)) as [img0 | e];
      [| reflexivity].
    rewrite !bind_Ok.
    change (Icon.draw_calls size)
      with ((Icon.circle_call size :: Icon.trend_calls size)
              ++ [Icon.alert_call size]).
    rewrite draw_all_app. apply result_bind_ext. intros img.
    cbn [draw_all draw Icon.alert_call]. apply result_bind_ret.
  - repeat constructor; discriminate.
Qed.

(** C10: for size >= 16 the x coordinates of the four vertices increase
    strictly from P0 to P3. *)
Theorem points_x_increasing (size : Z) :
  16 <= size ->
  length (Icon.points size) = 4%nat /\
  forall (i j : nat) (p q : Point),
    Icon.points size !! i = Some p ->
    Icon.points size !! j = Some q ->
    (i < j)%nat -> p.1 < q.1.
Proof.
  intros Hsize. split; [reflexivity |].
  intros i j p q Hp Hq Hij.
  destruct i as [|[|[|[|i]]]]; simplify_eq/=;
    destruct j as [|[|[|[|j]]]]; simplify_eq/=; try lia; div_lia.
Qed.

Lemma points_x_increasing_witness :
  (Icon.points 16).*1 = [4; 7; 9; 12] /\
  forall (i j : nat) (p q : Point),
    Icon.points 16 !! i = Some p -> Icon.points 16 !! j = Some q ->
    (i < j)%nat -> p.1 < q.1.
Proof.
  split; [reflexivity |].
  apply (points_x_increasing 16). lia.
Defined.

(** ** The reference library meets the contract *)

Lemma ellipse_widen (A B p q P Q : Z) :
  0 <= A -> 0 <= B -> 0 < p <= P -> 0 < q <= Q ->
  A * q + B * p <= p * q -> A * Q + B * P <= P * Q.
Proof.
  intros HA HB [Hp HpP] [Hq HqQ] Hin.
  assert (A * q * (p * Q) <= A * q * (P * Q)) as H1.
  { apply Z.mul_le_mono_nonneg_l; [lia |].
    apply Z.mul_le_mono_nonneg_r; lia. }
  assert (B * p * (q * P) <= B * p * (P * Q)) as H2.
  { apply Z.mul_le_mono_nonneg_l; [lia |].
    rewrite (Z.mul_comm P Q). apply Z.mul_le_mono_nonneg_r; lia. }
  assert ((A * q + B * p) * (P * Q) <= p * q * (P * Q)) as H3.
  { apply Z.mul_le_mono_nonneg_r; [| exact Hin].
    apply Z.mul_nonneg_nonneg; lia. }
  apply (Z.mul_le_mono_pos_l _ _ (p * q)); [lia |].
  replace (p * q * (A * Q + B * P))
    with (A * q * (p * Q) + B * p * (q * P)) by ring.
  lia.
Qed.

Lemma in_ellipse_grow (xy : Box) (x y : Z) :
  in_ellipse 1 xy x y -> in_ellipse 2 xy x y.
Proof.
  destruct xy as [[[x0 y0] x1] y1]. unfold in_ellipse.
  intros [Hbox Hin]. split; [exact Hbox |].
  revert Hin.
  set (a := 2 * x - x0 - x1). set (b := 2 * y - y0 - y1).
  assert (0 <= x1 - x0 /\ 0 <= y1 - y0) as [Hw Hh] by lia.
  revert Hw Hh. generalize (x1 - x0) as w, (y1 - y0) as h.
  intros w h Hw Hh Hin.
  rewrite !Z.pow_mul_l in *.
  apply (ellipse_widen (a ^ 2) (b ^ 2) ((w + 1) ^ 2) ((h + 1) ^ 2)
                       ((w + 2) ^ 2) ((h + 2) ^ 2)); try nia.
Qed.

Lemma getpixel_same_store (img img' : Image) (x y : Z) :
  im_size img' = im_size img ->
  im_pixel img' x y = im_pixel img x y ->
  getpixel img' (x, y) = getpixel img (x, y).
Proof. unfold getpixel. intros -> ->. reflexivity. Qed.

Lemma reference_spec : PillowSpec Reference.lib.
Proof.
  split; simpl.
  - intros w h c _ _. eexists. reflexivity.
  - intros w h c img [= <-]. split; [reflexivity |].
    intros [x y] [c' Hc']. revert Hc'. unfold getpixel. simpl.
    case_decide; [done | discriminate].
  - intros img x0 y0 x1 y1 c _ _. eexists. reflexivity.
  - intros img xy c img' [= <-]. split; [reflexivity |].
    intros x y Hout. apply getpixel_same_store; [reflexivity |]. simpl.
    rewrite decide_False; [reflexivity |].
    intros Hin. apply Hout, in_ellipse_grow, Hin.
  - intros img xy c width _. eexists. reflexivity.
  - intros img xy c width img' [= <-]. split; [reflexivity |].
    intros x y Hout. apply getpixel_same_store; [reflexivity |]. simpl.
    rewrite decide_False; [reflexivity | tauto].
  - intros img _ _. unfold Reference.encode.
    destruct (im_size img) as [w h]. eexists. reflexivity.
Qed.

(** ** Frame reasoning for any library that meets the contract *)


Section Contract.
Context (lib : Pillow) `{!PillowSpec lib}.

Lemma draw_frame (img img' : Image) (c : draw_call) :
  draw lib img c = Ok img' ->
  im_size img' = im_size img /\
  forall x y, ~ reach c x y -> getpixel img' (x, y) = getpixel img (x, y).
Proof.
  destruct c as [xy fill | xy fill width]; simpl.
  - apply ellipse_frame.
  - apply line_frame.
Qed.

Lemma draw_all_frame (cs : list draw_call) (img img' : Image) :
  draw_all lib img cs = Ok img' ->
  im_size img' = im_size img /\
  forall x y, Forall (fun c => ~ reach c x y) cs ->
              getpixel img' (x, y) = getpixel img (x, y).
Proof.
  revert img. induction cs as [| c cs IH]; intros img; simpl.
  - intros [= ->]. done.
  - destruct (draw lib img c) as [img1 | e] eqn:Hc; [| discriminate].
    simpl. intros Hcs.
    destruct (draw_frame _ _ _ Hc) as [Hs1 Hp1].
    destruct (IH _ Hcs) as [Hs Hp].
    split; [congruence |].
    intros x y Hout. inversion_clear Hout as [| ? ? Hc0 Hcs0].
    etrans; [by apply Hp | by apply Hp1].
Qed.

Lemma draw_ok (img : Image) (c : draw_call) :
  call_valid c -> exists img', draw lib img c = Ok img'.
Proof.
  destruct c as [[[[x0 y0] x1] y1] fill | xy fill width]; simpl.
  - intros [Hx Hy]. by apply ellipse_ok.
  - apply line_ok.
Qed.

Lemma draw_all_ok (cs : list draw_call) (img : Image) :
  Forall call_valid cs -> exists img', draw_all lib img cs = Ok img'.
Proof.
  revert img. induction cs as [| c cs IH]; intros img Hv; simpl.
  - eauto.
  - inversion_clear Hv as [| ? ? Hc Hcs].
    destruct (draw_ok img c Hc) as [img1 ->]. simpl. apply IH, Hcs.
Qed.

Lemma draw_calls_valid (size : Z) :
  0 <= size -> Forall call_valid (Icon.draw_calls size).
Proof.
  intros Hsize. rewrite draw_calls_unfold.
  repeat constructor; simpl; div_lia.
Qed.

(** For a positive size the five calls go through and leave a canvas of
    that size. *)
Lemma draw_icon_ok (size : Z) :
  0 < size ->
  exists img, draw_icon lib size = Ok img /\ im_size img = (size, size).
Proof.
  intros Hsize. unfold draw_icon.
  destruct (new_ok size size (0, 0, 0, 0) Hsize Hsize) as [img0 Hnew].
  rewrite Hnew, bind_Ok.
  destruct (draw_all_ok (Icon.draw_calls size) img0) as [img Hdraw].
  { apply draw_calls_valid. lia. }
  exists img. split; [exact Hdraw |].
  apply draw_all_frame in Hdraw as [-> _].
  by apply new_blank in Hnew as [-> _].
Qed.

(** A pixel of the canvas that no call reaches keeps the colour given to
    [Image.new]. *)
Lemma draw_icon_untouched (size : Z) (img : Image) (x y : Z) :
  draw_icon lib size = Ok img ->
  0 <= x < size -> 0 <= y < size ->
  Forall (fun c => ~ reach c x y) (Icon.draw_calls size) ->
  getpixel img (x, y) = Some transparent.
Proof.
  unfold draw_icon. intros Hrun Hx Hy Hout.
  apply bind_Ok_inv in Hrun as (img0 & Hnew & Hrun).
  apply draw_all_frame in Hrun as [_ Hp].
  rewrite Hp by exact Hout.
  apply new_blank in Hnew as [Hs Hblank]. apply Hblank.
  unfold getpixel. rewrite Hs. simpl.
  rewrite decide_True; [eauto | lia].
Qed.

End Contract.

(** ** Corners *)

Lemma corners_inv (size x y : Z) :
  (x, y) ∈ corners size ->
  (x = 0 \/ x = size - 1) /\ (y = 0 \/ y = size - 1).
Proof. unfold corners. set_unfold. intros H. repeat destruct H as [H | H]; simplify_eq; lia. Qed.

Lemma corners_in_canvas (size x y : Z) :
  0 < size -> (x, y) ∈ corners size -> 0 <= x < size /\ 0 <= y < size.
Proof. intros Hsize Hxy. apply corners_inv in Hxy. lia. Qed.

(** Below size 16 the box of the circle is only one pixel inside the
    canvas; its corner pixels are still outside the circle. *)
Lemma circle_misses_corners_small (size x y : Z) :
  8 <= size < 16 -> (x, y) ∈ corners size ->
  ~ reach (Icon.circle_call size) x y.
Proof.
  intros Hsize Hxy. apply corners_inv in Hxy as [Hx Hy].
  assert (size = 8 \/ size = 9 \/ size = 10 \/ size = 11 \/
          size = 12 \/ size = 13 \/ size = 14 \/ size = 15) as Hs by lia.
  repeat destruct Hs as [Hs | Hs]; subst size;
    destruct Hx as [-> | ->]; destruct Hy as [-> | ->];
    vm_compute; intros [_ Hin]; apply Hin; reflexivity.
Qed.

(** No drawing call reaches a corner once the margin is positive. *)
Lemma corners_unreached (size x y : Z) :
  8 <= size -> (x, y) ∈ corners size ->
  Forall (fun c => ~ reach c x y) (Icon.draw_calls size).
Proof.
  intros Hsize Hxy.
  pose proof (corners_inv _ _ _ Hxy) as [Hx Hy].
  rewrite draw_calls_unfold. constructor.
  - destruct (decide (size < 16)) as [Hsmall | Hbig].
    + apply (circle_misses_corners_small size x y); [lia | exact Hxy].
    + simpl. unfold ellipse_reach, in_ellipse. intros [Hbox _].
      revert Hbox. div_lia.
  - repeat constructor; simpl; unfold line_reach; div_lia.
Qed.

(** C7: once the margin is positive (size >= 8) the canvas is produced and
    its four corner pixels are still transparent black, so their alpha is 0:
    neither the circle, the trend strokes nor the alert stroke reaches
    them.  The library is any one meeting the contract [PillowSpec]. *)
Theorem corners_transparent (lib : Pillow) (Hlib : PillowSpec lib) (size : Z) :
  8 <= size ->
  0 < Icon.margin size /\
  exists img,
    draw_icon lib size = Ok img /\
    forall xy, xy ∈ corners size ->
      Forall (fun c => ~ reach c xy.1 xy.2) (Icon.draw_calls size) /\
      getpixel img xy = Some (0, 0, 0, 0) /\
      alpha <$> getpixel img xy = Some 0.
Proof.
  intros Hsize. split; [div_lia |].
  destruct (draw_icon_ok lib size ltac:(lia)) as (img & Hrun & Hs).
  exists img. split; [exact Hrun |].
  intros [x y] Hxy.
  pose proof (corners_unreached size x y Hsize Hxy) as Hout.
  pose proof (corners_in_canvas size x y ltac:(lia) Hxy) as [Hx Hy].
  pose proof (draw_icon_untouched lib size img x y Hrun Hx Hy Hout) as Hpx.
  split; [exact Hout |]. rewrite Hpx. done.
Qed.

Lemma corners_transparent_witness :
  0 < Icon.margin 8 /\
  exists img,
    draw_icon Reference.lib 8 = Ok img /\
    forall xy, xy ∈ corners 8 ->
      Forall (fun c => ~ reach c xy.1 xy.2) (Icon.draw_calls 8) /\
      getpixel img xy = Some (0, 0, 0, 0) /\
      alpha <$> getpixel img xy = Some 0.
Proof. apply (corners_transparent Reference.lib reference_spec 8). lia. Defined.

(** ** Running [create_icon] *)

(** The ways [create_icon] can end: the drawing raises; the path cannot be
    opened; the encoder raises after the path has been opened; or the file
    is written and the confirmation printed.  Nothing in it looks at
    [size]. *)
Lemma create_icon_run (lib : Pillow) (size : Z) (filename : string) (w : World) :
  create_icon lib size filename w =
  match draw_icon lib size with
  | Raise e => (w, Raise e)
  | Ok img =>
      if writable w filename then
        match png_encode lib img with
        | Ok data => (created filename data w, Ok tt)
        | Raise e => (failed_save filename (png_partial lib img) w, Raise e)
        end
      else (w, Raise OSError)
  end.
Proof.
  unfold create_icon, mbind, prog_bind, lift, save, print, created.
  destruct (draw_icon lib size) as [img | e]; [| reflexivity].
  destruct (writable w filename); [| reflexivity].
  destruct (png_encode lib img) as [data | e]; reflexivity.
Qed.

Lemma create_icon_Ok_inv (lib : Pillow) (size : Z) (filename : string)
      (w w' : World) :
  create_icon lib size filename w = (w', Ok tt) ->
  exists data,
    icon_png lib size = Ok data /\ writable w filename = true /\
    w' = created filename data w.
Proof.
  rewrite create_icon_run. unfold icon_png.
  destruct (draw_icon lib size) as [img | e]; [| discriminate].
  destruct (writable w filename) eqn:Hw; [| discriminate].
  rewrite bind_Ok.
  destruct (png_encode lib img) as [data | e]; [| discriminate].
  intros [= <-]. eauto.
Qed.

Lemma create_icon_Ok (lib : Pillow) (size : Z) (filename : string)
      (w : World) (data : list Z) :
  icon_png lib size = Ok data -> writable w filename = true ->
  create_icon lib size filename w = (created filename data w, Ok tt).
Proof.
  unfold icon_png. intros Hpng Hw.
  apply bind_Ok_inv in Hpng as (img & Himg & Henc).
  by rewrite create_icon_run, Himg, Hw, Henc.
Qed.

(** A call that raises has printed nothing and has at most changed the
    content of a file that was already at its path. *)
Lemma create_icon_Raise_inv (lib : Pillow) (size : Z) (filename : string)
      (w w' : World) (e : PyExn) :
  create_icon lib size filename w = (w', Raise e) ->
  stdout w' = stdout w /\ writable w' = writable w /\
  (forall q, q <> filename -> files w' !! q = files w !! q) /\
  (files w !! filename = None -> files w' !! filename = None) /\
  (is_Some (files w !! filename) -> is_Some (files w' !! filename)).
Proof.
  rewrite create_icon_run.
  destruct (draw_icon lib size) as [img | e0]; [| by intros [= <- <-]].
  destruct (writable w filename); [| by intros [= <- <-]].
  destruct (png_encode lib img) as [data | e0]; [discriminate |].
  intros [= <- <-]. unfold failed_save. simpl.
  destruct (files w !! filename) as [old |] eqn:Hold.
  - split_and!; try done.
    all: try (intros q Hq; by rewrite lookup_insert_ne).
    all: intros _; rewrite lookup_insert_eq; eauto.
  - split_and!; try done. all: by rewrite Hold.
Qed.

(** ** A canvas without pixels *)

Lemma strict_spec : PillowSpec Strict.lib.
Proof.
  destruct reference_spec as [_ Rblank Rell Rellf Rline Rlinef Rpng].
  split; simpl in *.
  - intros w h c Hw Hh. unfold Strict.new. simpl.
    rewrite decide_False by lia. eexists. reflexivity.
  - intros w h c img. unfold Strict.new. simpl.
    case_decide; [discriminate |]. apply Rblank.
  - exact Rell.
  - exact Rellf.
  - exact Rline.
  - exact Rlinef.
  - intros img Hw Hh. unfold Strict.encode.
    rewrite decide_False by lia. by apply Rpng.
Qed.

Lemma strict_rejects : PillowRejects Strict.lib.
Proof.
  split; simpl.
  - intros w h c Hneg. unfold Strict.new. simpl. by rewrite decide_True.
  - intros c. eexists. reflexivity.
  - intros img Hempty. unfold Strict.encode. by rewrite decide_True.
Qed.

(** At size 0 the library is handed an empty canvas and five calls with
    well-formed arguments: the drawing goes through. *)
Lemma draw_icon_empty (lib : Pillow) `{!PillowSpec lib} `{!PillowRejects lib} :
  exists img, draw_icon lib 0 = Ok img /\ im_size img = (0, 0).
Proof.
  unfold draw_icon.
  destruct (new_empty_ok (lib := lib) (0, 0, 0, 0)) as [img0 Hnew].
  rewrite Hnew, bind_Ok.
  destruct (draw_all_ok lib (Icon.draw_calls 0) img0) as [img Hdraw].
  { apply draw_calls_valid. lia. }
  exists img. split; [exact Hdraw |].
  apply (draw_all_frame lib) in Hdraw as [-> _].
  by apply new_blank in Hnew as [-> _].
Qed.

(** C2, as the code has it: [create_icon] has no check of [size]; for a
    non-positive size it fails, and prints nothing, only because the
    library refuses a canvas without pixels.  Below 0 [Image.new] raises
    [ValueError] and nothing is touched.  At 0 the empty canvas is created
    and drawn on, and the call fails in [img.save]: with [OSError] when the
    path cannot be opened, otherwise with [ValueError] from the encoder,
    after the path has been opened; no new file is left, but a file that was
    at the path holds what the encoder had written.  No other file
    changes. *)
Theorem nonpositive_size_fails (lib : Pillow) (Hlib : PillowSpec lib)
        (Hrej : PillowRejects lib) (size : Z) (filename : string) (w : World) :
  size <= 0 ->
  (exists e, (create_icon lib size filename w).2 = Raise e) /\
  stdout (create_icon lib size filename w).1 = stdout w /\
  (forall q, q <> filename ->
             files (create_icon lib size filename w).1 !! q = files w !! q) /\
  (files w !! filename = None ->
   files (create_icon lib size filename w).1 !! filename = None) /\
  (size < 0 -> create_icon lib size filename w = (w, Raise ValueError)) /\
  (size = 0 -> writable w filename = false ->
   create_icon lib size filename w = (w, Raise OSError)) /\
  (size = 0 -> writable w filename = true ->
   exists img,
     draw_icon lib 0 = Ok img /\
     create_icon lib size filename w =
     (failed_save filename (png_partial lib img) w, Raise ValueError)).
Proof.
  intros Hsize.
  assert (size < 0 -> create_icon lib size filename w = (w, Raise ValueError))
    as Hneg.
  { intros Hlt. rewrite create_icon_run. unfold draw_icon.
    rewrite new_negative by lia. reflexivity. }
  assert (size = 0 -> writable w filename = false ->
          create_icon lib size filename w = (w, Raise OSError)) as Hlocked.
  { intros -> Hw. rewrite create_icon_run.
    destruct (draw_icon_empty lib) as (img & -> & _). by rewrite Hw. }
  assert (size = 0 -> writable w filename = true ->
          exists img,
            draw_icon lib 0 = Ok img /\
            create_icon lib size filename w =
            (failed_save filename (png_partial lib img) w, Raise ValueError))
    as Hopen.
  { intros -> Hw. rewrite create_icon_run.
    destruct (draw_icon_empty lib) as (img & Himg & Hs).
    exists img. split; [exact Himg |].
    rewrite Himg, Hw, encode_empty; [reflexivity |]. rewrite Hs. simpl. lia. }
  assert (exists e, (create_icon lib size filename w).2 = Raise e) as [e He].
  { destruct (decide (size < 0)) as [Hlt | Hge].
    - rewrite (Hneg Hlt). eauto.
    - assert (size = 0) as H0 by lia.
      destruct (writable w filename) eqn:Hw.
      + destruct (Hopen H0 eq_refl) as (img & _ & ->). eauto.
      + rewrite (Hlocked H0 eq_refl). eauto. }
  destruct (create_icon lib size filename w) as [w' r] eqn:Hrun.
  simpl in He. subst r.
  apply create_icon_Raise_inv in Hrun as (Hout & _ & Hother & Hnone & _).
  simpl. split; [eauto |]. done.
Qed.

Lemma nonpositive_size_fails_witness :
  create_icon Strict.lib (-8) "icon.png" Reference.fresh
  = (Reference.fresh, Raise ValueError).
Proof.
  apply (nonpositive_size_fails Strict.lib strict_spec strict_rejects
           (-8) "icon.png" Reference.fresh); lia.
Defined.

(** C2, as stated, fails at size 0.  The call is not turned away: it gets
    as far as [img.save].  With a file already at the path, that file has
    lost its content when the encoder raises; with a path that cannot be
    opened, the error is [OSError], not an invalid argument. *)
Lemma size_zero_reaches_save :
  let w := mkWorld {["icon.png" := [1; 2; 3]]} (fun _ => true) [] in
  let locked := mkWorld ∅ (fun _ => false) [] in
  ~ (forall (filename : string) (w0 : World),
       (create_icon Strict.lib 0 filename w0).2 = Raise ValueError /\
       files (create_icon Strict.lib 0 filename w0).1 = files w0) /\
  files w !! "icon.png" = Some [1; 2; 3] /\
  create_icon Strict.lib 0 "icon.png" w
  = (mkWorld {["icon.png" := []]} (fun _ => true) [], Raise ValueError) /\
  create_icon Strict.lib 0 "icon.png" locked = (locked, Raise OSError).
Proof.
  intros w locked.
  assert (create_icon Strict.lib 0 "icon.png" locked = (locked, Raise OSError))
    as Hlocked by reflexivity.
  split; [| split; [reflexivity | split; [| exact Hlocked]]].
  - intros Hclaim. destruct (Hclaim "icon.png" locked) as [He _].
    rewrite Hlocked in He. discriminate.
  - vm_compute. reflexivity.
Qed.

(** ** Successful runs of the whole script *)

Lemma main_Ok_inv (lib : Pillow) (w w' : World) :
  main lib w = (w', Ok tt) ->
  exists d16 d48 d128,
    icon_png lib 16 = Ok d16 /\ icon_png lib 48 = Ok d48 /\
    icon_png lib 128 = Ok d128 /\
    writable w icon16 = true /\ writable w icon48 = true /\
    writable w icon128 = true /\
    files w' = <[icon128 := d128]> (<[icon48 := d48]> (<[icon16 := d16]> (files w))) /\
    writable w' = writable w /\
    stdout w' = stdout w ++ ["Created " +:+ icon16; "Created " +:+ icon48;
                             "Created " +:+ icon128;
                             "All icons created successfully!"].
Proof.
  unfold main, mbind, prog_bind.
  destruct (create_icon lib 16 icon16 w) as [w1 [[] | e]] eqn:H1;
    [| discriminate].
  apply create_icon_Ok_inv in H1 as (d16 & E16 & H16 & ->).
  destruct (create_icon lib 48 icon48 _) as [w2 [[] | e]] eqn:H2;
    [| discriminate].
  apply create_icon_Ok_inv in H2 as (d48 & E48 & H48 & ->).
  destruct (create_icon lib 128 icon128 _) as [w3 [[] | e]] eqn:H3;
    [| discriminate].
  apply create_icon_Ok_inv in H3 as (d128 & E128 & H128 & ->).
  intros [= <-]. exists d16, d48, d128. simpl in *.
  rewrite <- !(assoc_L (++)). done.
Qed.

Lemma main_run (lib : Pillow) (w : World) (d16 d48 d128 : list Z) :
  icon_png lib 16 = Ok d16 -> icon_png lib 48 = Ok d48 ->
  icon_png lib 128 = Ok d128 ->
  writable w icon16 = true -> writable w icon48 = true ->
  writable w icon128 = true ->
  main lib w =
  (mkWorld (<[icon128 := d128]> (<[icon48 := d48]> (<[icon16 := d16]> (files w))))
           (writable w)
           (stdout w ++ ["Created " +:+ icon16; "Created " +:+ icon48;
                         "Created " +:+ icon128;
                         "All icons created successfully!"]),
   Ok tt).
Proof.
  intros E16 E48 E128 H16 H48 H128.
  unfold main, mbind, prog_bind.
  rewrite (create_icon_Ok lib 16 icon16 w d16 E16 H16).
  rewrite (create_icon_Ok lib 48 icon48 (created icon16 d16 w) d48 E48 H48).
  rewrite (create_icon_Ok lib 128 icon128
             (created icon48 d48 (created icon16 d16 w)) d128 E128 H128).
  unfold print, created. simpl. rewrite <- !(assoc_L (++)). done.
Qed.

(** ** The module top level *)

Lemma icon_png_ok (lib : Pillow) `{!PillowSpec lib} (size : Z) :
  0 < size -> exists data, icon_png lib size = Ok data.
Proof.
  intros Hsize. unfold icon_png.
  destruct (draw_icon_ok lib size Hsize) as (img & -> & Hs).
  rewrite bind_Ok. apply png_ok; rewrite Hs; exact Hsize.
Qed.

Lemma main_is_three_calls (lib : Pillow) (w : World) :
  main lib w =
  (create_icons lib [(16, icon16); (48, icon48); (128, icon128)];;
   print "All icons created successfully!") w.
Proof.
  unfold main, create_icons, mbind, prog_bind, mret, prog_ret.
  destruct (create_icon lib 16 icon16 w) as [w1 [[] | e]]; [| reflexivity].
  destruct (create_icon lib 48 icon48 w1) as [w2 [[] | e]]; [| reflexivity].
  destruct (create_icon lib 128 icon128 w2) as [w3 [[] | e]]; reflexivity.
Qed.

(** C8: the top level is three calls of [create_icon], with sizes 16, 48
    and 128 in that order and three literal paths on drive C:, followed by
    one [print].  With a library that meets the contract and the three paths
    writable, the run ends normally, each call has stored its image under its
    path, and standard output has gained one [Created <path>] line per file,
    in call order, and then the one closing line. *)
Theorem main_output (lib : Pillow) (Hlib : PillowSpec lib) (w : World) :
  writable w icon16 = true ->
  writable w icon48 = true ->
  writable w icon128 = true ->
  main lib w =
    (create_icons lib [(16, icon16); (48, icon48); (128, icon128)];;
     print "All icons created successfully!") w /\
  Forall (fun p => String.prefix "C:\" p = true) [icon16; icon48; icon128] /\
  exists d16 d48 d128,
    icon_png lib 16 = Ok d16 /\ icon_png lib 48 = Ok d48 /\
    icon_png lib 128 = Ok d128 /\
    main lib w =
    (mkWorld
       (<[icon128 := d128]> (<[icon48 := d48]> (<[icon16 := d16]> (files w))))
       (writable w)
       (stdout w ++
          [ "Created C:\Users\USER\tradingview-alert-extension\icons\icon16.png";
            "Created C:\Users\USER\tradingview-alert-extension\icons\icon48.png";
            "Created C:\Users\USER\tradingview-alert-extension\icons\icon128.png";
            "All icons created successfully!" ]),
     Ok tt).
Proof.
  intros H16 H48 H128.
  split; [apply main_is_three_calls |].
  split; [repeat constructor |].
  destruct (icon_png_ok lib 16 ltac:(lia)) as [d16 E16].
  destruct (icon_png_ok lib 48 ltac:(lia)) as [d48 E48].
  destruct (icon_png_ok lib 128 ltac:(lia)) as [d128 E128].
  exists d16, d48, d128. repeat split; try done.
  by apply main_run.
Qed.

Lemma main_output_witness :
  stdout (main Reference.lib Reference.fresh).1 =
  [ "Created C:\Users\USER\tradingview-alert-extension\icons\icon16.png";
    "Created C:\Users\USER\tradingview-alert-extension\icons\icon48.png";
    "Created C:\Users\USER\tradingview-alert-extension\icons\icon128.png";
    "All icons created successfully!" ].
Proof.
  destruct (main_output Reference.lib reference_spec Reference.fresh
              eq_refl eq_refl eq_refl)
    as (_ & _ & d16 & d48 & d128 & _ & _ & _ & ->).
  reflexivity.
Defined.

(** ** The centre pixel

    The centre lies inside the circle, but the middle trend stroke passes
    close by it, and the contract leaves open which pixels of a stroke's
    neighbourhood are painted.  With the reference rasteriser the centre is
    orange at sizes 48 and 128 and white at size 16, where the stroke from
    (7,7) to (9,8) of width 2 runs less than half a pixel from (8,8). *)

Example center_in_circle_16 :
  in_ellipse 1 (2, 2, 14, 14) (Icon.center 16) (Icon.center 16).
Proof. apply (bool_decide_unpack _). vm_compute. reflexivity. Qed.

Example center_near_stroke_16 :
  nth 2 (Icon.draw_calls 16) (Icon.circle_call 16)
    = line ((7, 7), (9, 8)) white 2 /\
  line_reach ((7, 7), (9, 8)) 2 (Icon.center 16) (Icon.center 16) /\
  Reference.in_band ((7, 7), (9, 8)) 2 (Icon.center 16) (Icon.center 16).
Proof.
  split; [reflexivity |].
  split; apply (bool_decide_unpack _); vm_compute; reflexivity.
Qed.

Example reference_center_16 :
  exists img, draw_icon Reference.lib 16 = Ok img /\
              getpixel img (Icon.center 16, Icon.center 16) = Some white.
Proof. eexists. split; [reflexivity | vm_compute; reflexivity]. Qed.

Example reference_center_48 :
  exists img, draw_icon Reference.lib 48 = Ok img /\
              getpixel img (Icon.center 48, Icon.center 48) = Some orange.
Proof. eexists. split; [reflexivity | vm_compute; reflexivity]. Qed.

Example reference_center_128 :
  exists img, draw_icon Reference.lib 128 = Ok img /\
              getpixel img (Icon.center 128, Icon.center 128) = Some orange.
Proof. eexists. split; [reflexivity | vm_compute; reflexivity]. Qed.

(** * Further properties of the geometry *)

Lemma stroke_calls (size : Z) (c : draw_call) :
  c ∈ Icon.trend_calls size ++ [Icon.alert_call size] ->
  c = line ((Icon.margin size + size / 6, Icon.center size + size / 6),
            (Icon.center size - size / 10, Icon.center size - size / 10))
           white (Icon.line_width size) \/
  c = line ((Icon.center size - size / 10, Icon.center size - size / 10),
            (Icon.center size + size / 10, Icon.center size))
           white (Icon.line_width size) \/
  c = line ((Icon.center size + size / 10, Icon.center size),
            (size - Icon.margin size - size / 6, Icon.center size - size / 4))
           white (Icon.line_width size) \/
  c = line ((Icon.margin size + size / 8, Icon.y_line size),
            (size - Icon.margin size - size / 8, Icon.y_line size))
           alert_white (Z.max 1 (Icon.line_width size / 2)).
Proof.
  change (Icon.trend_calls size ++ [Icon.alert_call size])
    with (tail (Icon.draw_calls size)).
  rewrite draw_calls_unfold. simpl. set_unfold. tauto.
Qed.

Lemma stroke_reach_in_box (size x y : Z) (c : draw_call) :
  8 <= size ->
  c ∈ Icon.trend_calls size ++ [Icon.alert_call size] ->
  reach c x y -> in_circle_box size x y.
Proof.
  intros Hsize Hc. apply stroke_calls in Hc.
  unfold in_circle_box.
  destruct Hc as [-> | [-> | [-> | ->]]]; simpl; unfold line_reach;
    intros Hr; revert Hr; div_lia.
Qed.

(** For size >= 8 every pixel within [width // 2] of the rectangle spanned
    by the end points of a stroke lies in the box of the circle: the white
    strokes never leave the square the disc is drawn in. *)
Theorem strokes_inside_circle_box (size x y : Z) (c : draw_call) :
  8 <= size ->
  c ∈ Icon.trend_calls size ++ [Icon.alert_call size] ->
  reach c x y -> in_circle_box size x y.
Proof. apply stroke_reach_in_box. Qed.

Lemma strokes_inside_circle_box_witness :
  in_circle_box 8 6 1.
Proof.
  apply (strokes_inside_circle_box 8 6 1 (line ((4, 4), (6, 2)) white 2)).
  - lia.
  - apply (bool_decide_unpack _). vm_compute. reflexivity.
  - apply (bool_decide_unpack _). vm_compute. reflexivity.
Defined.

(** For a positive size the box of the circle fits the canvas exactly when
    size >= 8; below that the margin is 0 and the far border of the box,
    [size], is one past the last pixel. *)
Theorem circle_box_in_canvas_iff (size : Z) :
  0 < size ->
  (forall x y, in_circle_box size x y -> in_canvas size x y) <-> 8 <= size.
Proof.
  intros Hsize. unfold in_circle_box, in_canvas. split.
  - intros Hin.
    specialize (Hin (size - Icon.margin size) (size - Icon.margin size)).
    revert Hin. div_lia.
  - intros Hbig x y. div_lia.
Qed.

Lemma circle_box_in_canvas_iff_witness :
  (forall x y, in_circle_box 7 x y -> in_canvas 7 x y) <-> 8 <= 7.
Proof. apply (circle_box_in_canvas_iff 7). lia. Defined.

(** The arguments of the drawing calls are well formed (ellipse box with
    ordered corners, strokes of positive width) exactly when size >= -2;
    from size = -3 down the box is handed over with its corners swapped. *)
Theorem call_arguments_valid_iff (size : Z) :
  Forall call_valid (Icon.draw_calls size) <-> -2 <= size.
Proof.
  rewrite draw_calls_unfold. split.
  - intros Hv. inversion_clear Hv as [| ? ? Hbox _]. simpl in Hbox.
    revert Hbox. div_lia.
  - intros Hsize. repeat constructor; simpl; div_lia.
Qed.

(** The stroke is at least 2 wide, so the guard [max(1, _)] on the alert
    line never takes effect: its width is always [line_width // 2], at least
    1 and at most half the stroke.  The stroke exceeds its floor of 2 only
    from size 48 on. *)
Theorem alert_width_is_half_stroke (size : Z) :
  2 <= Icon.line_width size /\
  Z.max 1 (Icon.line_width size / 2) = Icon.line_width size / 2 /\
  1 <= Icon.line_width size / 2 /\
  2 * (Icon.line_width size / 2) <= Icon.line_width size /\
  (2 < Icon.line_width size <-> 48 <= size).
Proof. repeat split; div_lia. Qed.

(** The middle stroke P1-P2 collapses to a single point exactly for
    0 <= size < 10. *)
Theorem middle_stroke_degenerate_iff (size : Z) :
  Icon.points size !! 1%nat = Icon.points size !! 2%nat <-> 0 <= size < 10.
Proof.
  simpl. split.
  - intros [= Hx Hy]. revert Hx Hy. div_lia.
  - intros Hsize. f_equal. f_equal; div_lia.
Qed.

(** The x coordinates of the four vertices increase strictly from P0 to P3
    exactly when size >= 10. *)
Theorem points_x_increasing_iff (size : Z) :
  (forall (i j : nat) (p q : Point),
     Icon.points size !! i = Some p -> Icon.points size !! j = Some q ->
     (i < j)%nat -> p.1 < q.1)
  <-> 10 <= size.
Proof.
  split.
  - intros Hinc.
    specialize (Hinc 1%nat 2%nat _ _ eq_refl eq_refl ltac:(lia)).
    simpl in Hinc. revert Hinc. div_lia.
  - intros Hsize i j p q Hp Hq Hij.
    destruct i as [|[|[|[|i]]]]; simplify_eq/=;
      destruct j as [|[|[|[|j]]]]; simplify_eq/=; try lia; div_lia.
Qed.

(** The trend rises (image rows grow downwards): for size >= 6 the line
    starts at its lowest vertex P0 and ends at its highest vertex P3, with
    P1 no lower than P2 in between. *)
Theorem trend_rises (size : Z) :
  6 <= size ->
  exists p0 p1 p2 p3 : Point,
    Icon.points size = [p0; p1; p2; p3] /\
    p3.2 < p1.2 /\ p1.2 <= p2.2 /\ p2.2 < p0.2.
Proof.
  intros Hsize. do 4 eexists. split; [reflexivity |]. simpl.
  repeat split; div_lia.
Qed.

Lemma trend_rises_witness :
  exists p0 p1 p2 p3 : Point,
    Icon.points 6 = [p0; p1; p2; p3] /\
    p3.2 < p1.2 /\ p1.2 <= p2.2 /\ p2.2 < p0.2.
Proof. apply (trend_rises 6). lia. Defined.

(** For a positive size the alert line has positive length, is centred
    horizontally (its end points mirror each other about the middle of the
    canvas) and lies no lower than the centre row and no higher than the
    last vertex of the trend. *)
Theorem alert_line_geometry (size : Z) :
  0 < size ->
  exists x0 x1 y width,
    Icon.alert_call size = line ((x0, y), (x1, y)) alert_white width /\
    x0 < x1 /\ x0 + x1 = size /\
    Icon.center size - size / 4 <= y <= Icon.center size.
Proof.
  intros Hsize. do 4 eexists. split; [reflexivity |].
  repeat split; div_lia.
Qed.

Lemma alert_line_geometry_witness :
  exists x0 x1 y width,
    Icon.alert_call 1 = line ((x0, y), (x1, y)) alert_white width /\
    x0 < x1 /\ x0 + x1 = 1 /\
    Icon.center 1 - 1 / 4 <= y <= Icon.center 1.
Proof. apply (alert_line_geometry 1). lia. Defined.

(** * Further properties of the canvas and of the run *)

Lemma outside_box_unreached (size x y : Z) :
  8 <= size -> ~ in_circle_box size x y ->
  Forall (fun c => ~ reach c x y) (Icon.draw_calls size).
Proof.
  intros Hsize Hout. unfold Icon.draw_calls. constructor.
  - simpl. unfold ellipse_reach, in_ellipse. intros [Hbox _].
    apply Hout. exact Hbox.
  - apply Forall_forall. intros c Hc Hr.
    apply Hout. by apply (stroke_reach_in_box size x y c).
Qed.

(** With a library that meets the contract, for size >= 8 the canvas is
    size x size and every pixel of it outside the box of the circle is
    still transparent black: the margin around the disc is never drawn
    on. *)
Theorem margin_stays_transparent (lib : Pillow) (Hlib : PillowSpec lib)
        (size : Z) :
  8 <= size ->
  exists img,
    draw_icon lib size = Ok img /\ im_size img = (size, size) /\
    forall x y, in_canvas size x y -> ~ in_circle_box size x y ->
                getpixel img (x, y) = Some (0, 0, 0, 0).
Proof.
  intros Hsize.
  destruct (draw_icon_ok lib size ltac:(lia)) as (img & Hrun & Hs).
  exists img. split; [exact Hrun |]. split; [exact Hs |].
  intros x y [Hx Hy] Hout.
  apply (draw_icon_untouched lib size img x y Hrun Hx Hy).
  by apply outside_box_unreached.
Qed.

Lemma margin_stays_transparent_witness :
  exists img,
    draw_icon Reference.lib 16 = Ok img /\ im_size img = (16, 16) /\
    forall x y, in_canvas 16 x y -> ~ in_circle_box 16 x y ->
                getpixel img (x, y) = Some (0, 0, 0, 0).
Proof.
  apply (margin_stays_transparent Reference.lib reference_spec 16). lia.
Defined.


(** ** The whole script *)

Lemma paths_distinct :
  icon16 <> icon48 /\ icon16 <> icon128 /\ icon48 <> icon128.
Proof. unfold icon16, icon48, icon128. repeat split; discriminate. Qed.

Lemma extends_refl (paths : list string) (w : World) : extends paths w w.
Proof. unfold extends. done. Qed.

Lemma extends_trans (paths : list string) (w1 w2 w3 : World) :
  extends paths w1 w2 -> extends paths w2 w3 -> extends paths w1 w3.
Proof.
  intros (Hw1 & Hs1 & Hf1 & Hk1) (Hw2 & Hs2 & Hf2 & Hk2).
  unfold extends. split; [congruence |]. split; [by etrans |].
  split.
  - intros q Hq. rewrite Hf2, Hf1; done.
  - intros q Hq. by apply Hk2, Hk1.
Qed.

Lemma created_extends (paths : list string) (filename : string)
      (data : list Z) (w : World) :
  filename ∈ paths -> extends paths w (created filename data w).
Proof.
  intros Hin. unfold extends, created. simpl.
  split; [done |]. split; [by apply prefix_app_r |]. split.
  - intros q Hq. apply lookup_insert_ne. intros ->. done.
  - intros q Hq. destruct (decide (filename = q)) as [-> | Hne].
    + rewrite lookup_insert_eq. eauto.
    + by rewrite lookup_insert_ne.
Qed.

Lemma create_icon_extends (lib : Pillow) (paths : list string) (size : Z)
      (filename : string) (w : World) :
  filename ∈ paths -> extends paths w (create_icon lib size filename w).1.
Proof.
  intros Hin.
  destruct (create_icon lib size filename w) as [w' [[] | e]] eqn:Hrun; simpl.
  - apply create_icon_Ok_inv in Hrun as (data & _ & _ & ->).
    by apply created_extends.
  - apply create_icon_Raise_inv in Hrun as (Hout & Hwr & Hother & _ & Hkeep).
    unfold extends. split; [exact Hwr |]. split; [by rewrite Hout |].
    split.
    + intros q Hq. apply Hother. intros ->. done.
    + intros q Hq. destruct (decide (q = filename)) as [-> | Hne].
      * by apply Hkeep.
      * by rewrite Hother.
Qed.

Lemma print_extends (paths : list string) (s : string) (w : World) :
  extends paths w (print s w).1.
Proof.
  unfold extends, print. simpl. split; [done |].
  split; [by apply prefix_app_r | done].
Qed.

(** Whatever the library does and however the run ends, the script leaves
    every file other than its three icons as it was, removes no file, and
    only appends to standard output. *)
Theorem main_touches_only_its_icons (lib : Pillow) (w : World) :
  extends [icon16; icon48; icon128] w (main lib w).1.
Proof.
  unfold main, mbind, prog_bind.
  pose proof (create_icon_extends lib [icon16; icon48; icon128] 16 icon16 w
                ltac:(set_solver)) as H1.
  destruct (create_icon lib 16 icon16 w) as [w1 [[] | e]]; [| exact H1].
  pose proof (create_icon_extends lib [icon16; icon48; icon128] 48 icon48 w1
                ltac:(set_solver)) as H2.
  destruct (create_icon lib 48 icon48 w1) as [w2 [[] | e]];
    [| by eapply extends_trans].
  pose proof (create_icon_extends lib [icon16; icon48; icon128] 128 icon128 w2
                ltac:(set_solver)) as H3.
  destruct (create_icon lib 128 icon128 w2) as [w3 [[] | e]];
    [| eapply extends_trans; [by eapply extends_trans | done]].
  eapply extends_trans; [| apply print_extends].
  eapply extends_trans; [by eapply extends_trans | done].
Qed.

(** After a run that ends normally each of the three paths holds the image
    of its own size (the paths differ, so no icon overwrites another) and
    every other file is as it was. *)
Theorem main_files_on_success (lib : Pillow) (w w' : World) :
  main lib w = (w', Ok tt) ->
  exists d16 d48 d128,
    icon_png lib 16 = Ok d16 /\ icon_png lib 48 = Ok d48 /\
    icon_png lib 128 = Ok d128 /\
    files w' !! icon16 = Some d16 /\ files w' !! icon48 = Some d48 /\
    files w' !! icon128 = Some d128 /\
    forall q, q ∉ [icon16; icon48; icon128] -> files w' !! q = files w !! q.
Proof.
  intros Hrun.
  apply main_Ok_inv in Hrun
    as (d16 & d48 & d128 & E16 & E48 & E128 & _ & _ & _ & Hf & _ & _).
  destruct paths_distinct as (H1 & H2 & H3).
  exists d16, d48, d128. rewrite Hf.
  split; [exact E16 |]. split; [exact E48 |]. split; [exact E128 |].
  split; [| split; [| split]].
  - rewrite (lookup_insert_ne _ icon128 icon16) by done.
    rewrite (lookup_insert_ne _ icon48 icon16) by done.
    apply lookup_insert_eq.
  - rewrite (lookup_insert_ne _ icon128 icon48) by done.
    apply lookup_insert_eq.
  - apply lookup_insert_eq.
  - intros q Hq.
    rewrite (lookup_insert_ne _ icon128 q) by set_solver.
    rewrite (lookup_insert_ne _ icon48 q) by set_solver.
    apply lookup_insert_ne. set_solver.
Qed.

Lemma main_files_on_success_witness :
  exists d16 d48 d128,
    icon_png Reference.lib 16 = Ok d16 /\ icon_png Reference.lib 48 = Ok d48 /\
    icon_png Reference.lib 128 = Ok d128 /\
    files (main Reference.lib Reference.fresh).1 !! icon16 = Some d16 /\
    files (main Reference.lib Reference.fresh).1 !! icon48 = Some d48 /\
    files (main Reference.lib Reference.fresh).1 !! icon128 = Some d128 /\
    forall q, q ∉ [icon16; icon48; icon128] ->
      files (main Reference.lib Reference.fresh).1 !! q
      = files Reference.fresh !! q.
Proof.
  apply (main_files_on_success Reference.lib Reference.fresh).
  destruct (icon_png_ok Reference.lib (PillowSpec0 := reference_spec) 16
              ltac:(lia)) as [d16 E16].
  destruct (icon_png_ok Reference.lib (PillowSpec0 := reference_spec) 48
              ltac:(lia)) as [d48 E48].
  destruct (icon_png_ok Reference.lib (PillowSpec0 := reference_spec) 128
              ltac:(lia)) as [d128 E128].
  rewrite (main_run Reference.lib Reference.fresh d16 d48 d128
             E16 E48 E128 eq_refl eq_refl eq_refl).
  reflexivity.
Defined.


